(** * run_platform_analysis.py : the platform comparison report

    The script is one function, [analyze_platforms], that prints a fixed
    report about three e-commerce platforms.  It reads the wall clock once
    (for the date line of the header) and otherwise only walks two literal
    dictionaries.

    The embedding keeps the shape of the script:
    - [print] is the only effect; it is modelled by a writer monad [Out.t]
      whose log is the sequence of strings handed to [print], each of which
      Python terminates with a newline;
    - the dictionaries are association lists in insertion order, which is
      the order [dict.items()] iterates in;
    - Python integers are [Z], strings are byte strings holding the UTF-8
      encoding the script is saved in;
    - the clock reading is the argument [now] of the program. *)

From Stdlib Require Import String Ascii List ZArith Lia Bool.
From Stdlib Require Import DecimalString DecimalZ.
Import ListNotations.

Open Scope list_scope.
Open Scope string_scope.

(** ** The Python primitives the script uses *)

Module Py.

(** The line feed, written [\n] in the script. *)
Definition LF : string := String (ascii_of_nat 10) EmptyString.

(** [str(n)] for an [int], which is also what an f-string field [{n}]
    inserts: decimal digits, with a leading minus sign below zero. *)
Definition str (n : Z) : string := NilZero.string_of_int (Z.to_int n).

(** The integer a decimal numeral stands for, as [int(s)] reads it: used
    to read printed numbers back. *)
Definition read_int (s : string) : option Z :=
  option_map Z.of_int (NilZero.int_of_string s).

(** [len(xs)] *)
Definition len {A : Type} (xs : list A) : Z := Z.of_nat (List.length xs).

(** [s * n] *)
Fixpoint mul (s : string) (n : nat) : string :=
  match n with
  | O => EmptyString
  | S n' => s ++ mul s n'
  end.

(** [c.upper()] on one byte.  Only the letters a-z change; the bytes of
    a multi-byte character are left alone. *)
Definition upper_ascii (c : ascii) : ascii :=
  let n := nat_of_ascii c in
  if andb (Nat.leb 97 n) (Nat.leb n 122) then ascii_of_nat (n - 32) else c.

(** [s.upper()].  Exact on ASCII strings, which all the platform keys of
    the script are (see [platform_keys_ascii]). *)
Fixpoint upper (s : string) : string :=
  match s with
  | EmptyString => EmptyString
  | String c r => String (upper_ascii c) (upper r)
  end.

Definition is_ascii (s : string) : bool :=
  forallb (fun c => Nat.ltb (nat_of_ascii c) 128) (list_ascii_of_string s).

(** [next(it, default)] on a fresh iterator: its first element, or the
    default when it is exhausted. *)
Definition next {A : Type} (it : list A) (default : A) : A :=
  match it with
  | [] => default
  | x :: _ => x
  end.

(** [enumerate(xs, start)] *)
Fixpoint enumerate {A : Type} (xs : list A) (start : Z) : list (Z * A) :=
  match xs with
  | [] => []
  | x :: r => (start, x) :: enumerate r (start + 1)
  end.

(** A [dict] with string keys, as far as [.items()] sees it: the
    key/value pairs in insertion order. *)
Definition dict (V : Type) : Type := list (string * V).

Definition items {V : Type} (d : dict V) : list (string * V) := d.

(** The fields of a [datetime] that the format string reads. *)
Record datetime : Type := mkDatetime {
  year : nat;
  month : nat;
  day : nat;
  hour : nat;
  minute : nat
}.

(** A number in at least [w] digits, zero filled on the left. *)
Definition zfill (w : nat) (n : nat) : string :=
  let s := str (Z.of_nat n) in
  mul "0" (w - String.length s) ++ s.

(** [now.strftime('%Y-%m-%d %H:%M')].  The year is written in four digits:
    a clock reading has a year of four digits, and for a year below 1000
    the C libraries differ on the padding. *)
Definition strftime (now : datetime) : string :=
  zfill 4 (year now) ++ "-" ++ zfill 2 (month now) ++ "-" ++
  zfill 2 (day now) ++ " " ++ zfill 2 (hour now) ++ ":" ++
  zfill 2 (minute now).

End Py.

(** ** Standard output *)

Module Out.

(** A computation that prints: its value and the strings it gave to
    [print], oldest first. *)
Definition t (A : Type) : Type := (A * list string)%type.

Definition ret {A : Type} (a : A) : t A := (a, []).

Definition bind {A B : Type} (m : t A) (k : A -> t B) : t B :=
  let (a, o1) := m in
  let (b, o2) := k a in
  (b, (o1 ++ o2)%list).

(** [print(s)] *)
Definition print (s : string) : t unit := (tt, [s]).

(** [for x in xs: body] *)
Fixpoint for_ {A : Type} (xs : list A) (body : A -> t unit) : t unit :=
  match xs with
  | [] => ret tt
  | x :: r => bind (body x) (fun _ => for_ r body)
  end.

(** What was printed, one entry for each call of [print]. *)
Definition stdout {A : Type} (m : t A) : list string := snd m.

(** The pieces of a string between the occurrences of a separator, as
    [s.split(sep)] gives them. *)
Fixpoint split_on (sep : ascii) (s : string) : list string :=
  match s with
  | EmptyString => [EmptyString]
  | String c r =>
      if Ascii.eqb c sep then EmptyString :: split_on sep r
      else match split_on sep r with
           | [] => [String c EmptyString]
           | l :: ls => String c l :: ls
           end
  end.

Definition split_lf : string -> list string := split_on (ascii_of_nat 10).

(** The whole text on the terminal: [print] writes its argument and a
    line feed. *)
Definition text {A : Type} (m : t A) : string :=
  String.concat "" (map (fun s => s ++ String (ascii_of_nat 10) "") (stdout m)).

(** The lines of a text, each ended by a line feed (a last line that is
    not ended counts too). *)
Fixpoint text_lines (s : string) : list string :=
  match s with
  | EmptyString => []
  | String c r =>
      if Ascii.eqb c (ascii_of_nat 10) then EmptyString :: text_lines r
      else match text_lines r with
           | [] => [String c EmptyString]
           | l :: ls => String c l :: ls
           end
  end.

(** The lines that reach the terminal, from the printed strings: [print]
    ends its argument with a line feed, and a line feed inside the
    argument ends a line too.  [lines_text] below shows that these are
    the lines of [text]. *)
Definition lines {A : Type} (m : t A) : list string :=
  flat_map split_lf (stdout m).

End Out.

Notation "m ;; k" := (Out.bind m (fun _ => k))
  (at level 61, right associativity).

Import Py Out.

(** ** The data of the script *)

(** An entry of a ["status_tabs"] list. *)
Record status_tab : Type := mkTab {
  name : string;
  count : option Z;
  active : bool
}.

(** A value of the [platforms_data] dictionary. *)
Record platform : Type := mkPlatform {
  status_tabs : list status_tab;
  table_columns : Z;
  unique_features : list string
}.

Definition platforms_data : dict platform :=
  [ ("N11",
     {| status_tabs :=
          [ {| name := "Tüm Ürünler"; count := Some 5376%Z; active := false |};
            {| name := "Satıştakiler"; count := Some 4776%Z; active := true |};
            {| name := "Tükenen Ürünler"; count := Some 598%Z; active := false |};
            {| name := "Satışta Olmayanlar"; count := Some 0%Z; active := false |};
            {| name := "Aksiyon Bekleyenler"; count := Some 0%Z; active := false |};
            {| name := "Katalogdan Reddedilenler"; count := Some 1%Z; active := false |};
            {| name := "Katalog Onayı Bekleyenler"; count := Some 1%Z; active := false |} ];
        table_columns := 14;
        unique_features :=
          [ "7 distinct product status categories";
            "Advanced table customization (Tabloyu Özelleştir)";
            "CSS variable-based column sizing";
            "Commission rate display in product info";
            "GTIN barcode integration with tooltips";
            "Inline popover editing system";
            "Sophisticated catalog approval workflow" ] |});
    ("Hepsiburada",
     {| status_tabs :=
          [ {| name := "Tümü"; count := Some 1%Z; active := false |};
            {| name := "Satışta"; count := None; active := false |};
            {| name := "Satışa kapalı"; count := None; active := false |};
            {| name := "Kilitli"; count := Some 1%Z; active := false |} ];
        table_columns := 12;
        unique_features :=
          [ "Buybox position tracking";
            "Competitive price monitoring";
            "30-day price history";
            "Product information quality scoring";
            "Data quality alerts";
            "Dynamic filter addition system";
            "Advanced search with multiple criteria" ] |});
    ("Trendyol",
     {| status_tabs :=
          [ {| name := "Tümü"; count := None; active := true |};
            {| name := "Aktif"; count := None; active := false |};
            {| name := "Pasif"; count := None; active := false |};
            {| name := "Stokta Yok"; count := None; active := false |} ];
        table_columns := 15;
        unique_features :=
          [ "Variant management system";
            "Product completion percentage";
            "Delivery time tracking";
            "Grid/Table view toggle";
            "Table settings modal (our implementation)";
            "Advanced filter panel" ] |}) ].

Definition recommendations : dict (list string) :=
  [ ("🟢 HIGH PRIORITY",
     [ "✅ Table Settings Modal (Already implemented!)";
       "🔄 Advanced Status Tab System (N11's 7-category model)";
       "📊 Data Quality Scoring (Hepsiburada pattern)";
       "⚡ Enhanced Bulk Operations" ]);
    ("🟡 MEDIUM PRIORITY",
     [ "💰 Competitive Price Tracking";
       "📈 Product Completion Percentage";
       "🏷️ Commission Display Integration";
       "🔍 Dynamic Filter Addition" ]);
    ("🔴 FUTURE ENHANCEMENTS",
     [ "🎨 CSS Variable-based Column Sizing";
       "📊 Buybox Position Tracking";
       "🔔 Data Quality Alerts";
       "📋 Catalog Approval Workflows" ]) ].

(** ** The program *)

(** The body of the loop over a platform's tabs (lines 88-91). *)
Definition print_tab (tab : status_tab) : Out.t unit :=
  let status := if active tab then "[ACTIVE]" else "" in
  let count_str :=
    match count tab with
    | Some n => "(" ++ str n ++ ")"
    | None => "(-)"
    end in
  print ("      • " ++ name tab ++ " " ++ count_str ++ " " ++ status).

(** The body of the first loop over the platforms (lines 80-91). *)
Definition print_status (item : string * platform) : Out.t unit :=
  let (platform, data) := item in
  print (LF ++ "🏢 " ++ upper platform ++ ":") ;;
  print ("   Total Categories: " ++ str (len (status_tabs data))) ;;
  let active_tab :=
    next (map name (filter active (status_tabs data))) "None" in
  print ("   Active Tab: " ++ active_tab) ;;
  for_ (status_tabs data) print_tab.

(** The body of the second loop over the platforms (lines 96-99). *)
Definition print_features (item : string * platform) : Out.t unit :=
  let (platform, data) := item in
  print (LF ++ "🏢 " ++ upper platform ++ ":") ;;
  for_ (enumerate (unique_features data) 1)
    (fun '(i, feature) => print ("   " ++ str i ++ ". " ++ feature)).

(** The body of the loop over the recommendations (lines 135-138). *)
Definition print_category (item : string * list string) : Out.t unit :=
  let (category, items) := item in
  print (LF ++ category ++ ":") ;;
  for_ items (fun item => print ("   " ++ item)).

(** [analyze_platforms], with the clock reading and the two literal
    dictionaries it binds as arguments. *)
Definition analyze_platforms_on (now : datetime)
    (platforms_data : dict platform)
    (recommendations : dict (list string)) : Out.t unit :=
  print "🚀 TURKISH E-COMMERCE PLATFORM ANALYSIS" ;;
  print (mul "=" 60) ;;
  print ("Analysis Date: " ++ strftime now) ;;
  print (mul "=" 60) ;;
  (* Status Tab Analysis *)
  print (LF ++ "📊 STATUS TAB ANALYSIS") ;;
  print (mul "-" 40) ;;
  for_ (items platforms_data) print_status ;;
  (* Feature Analysis *)
  print (LF ++ "💡 UNIQUE FEATURES & INNOVATIONS") ;;
  print (mul "-" 40) ;;
  for_ (items platforms_data) print_features ;;
  (* Key Insights *)
  print (LF ++ "🎯 KEY INSIGHTS") ;;
  print (mul "-" 40) ;;
  print "✅ N11 has the most sophisticated status management (7 categories)" ;;
  print "💰 Hepsiburada leads in competitive intelligence features" ;;
  print "📊 All platforms prioritize table customization" ;;
  print "🔄 Our implementation aligns with industry standards" ;;
  print "🚀 Table Settings Modal matches N11/Hepsiburada patterns" ;;
  (* Implementation Recommendations *)
  print (LF ++ "🚀 IMPLEMENTATION RECOMMENDATIONS") ;;
  print (mul "-" 40) ;;
  for_ (items recommendations) print_category ;;
  print (LF ++ mul "=" 60) ;;
  print "🏆 ANALYSIS COMPLETE" ;;
  print "✨ Our table settings implementation is industry-standard!" ;;
  print "🎯 Next focus: Advanced status management system" ;;
  print (mul "=" 60).

(** [analyze_platforms()], run at clock reading [now]. *)
Definition analyze_platforms (now : datetime) : Out.t unit :=
  analyze_platforms_on now platforms_data recommendations.

(** ** Reading the printed text

    The properties speak of what stands on the terminal, so they are stated
    on [lines], through a few readers of the printed text that know nothing
    of the program: blank lines separate blocks, a block whose second
    line is a rule (or that starts with the long rule) opens a section. *)

(** The blocks of a text: maximal runs of lines between empty lines. *)
Fixpoint blocks (ls : list string) : list (list string) :=
  match ls with
  | [] => [[]]
  | l :: r =>
      if String.eqb l "" then [] :: blocks r
      else match blocks r with
           | [] => [[l]]
           | b :: bs => (l :: b) :: bs
           end
  end.

Definition rule40 : string := mul "-" 40.
Definition rule60 : string := mul "=" 60.

Definition opens_section (b : list string) : bool :=
  match b with
  | l0 :: rest =>
      String.eqb l0 rule60 ||
      match rest with
      | l1 :: _ => String.eqb l1 rule40 || String.eqb l1 rule60
      | [] => false
      end
  | [] => false
  end.

(** Blocks before the first opening block, and the sections after it:
    each an opening block with the blocks that follow it. *)
Fixpoint group_sections (bs : list (list string))
  : list (list string) * list (list string * list (list string)) :=
  match bs with
  | [] => ([], [])
  | b :: r =>
      let (pending, secs) := group_sections r in
      if opens_section b then ([], (b, pending) :: secs)
      else (b :: pending, secs)
  end.

Definition sections (ls : list string)
  : list (list string * list (list string)) :=
  snd (group_sections (blocks ls)).

(** The first line of a block. *)
Definition heading (b : list string) : string := hd "" b.

(** The blocks under the section whose opening block starts with [title]. *)
Definition section_blocks (title : string) (ls : list string)
  : list (list string) :=
  match find (fun s => String.eqb (heading (fst s)) title) (sections ls) with
  | Some s => snd s
  | None => []
  end.

(** [Some rest] when [s] is [p ++ rest]. *)
Fixpoint strip_prefix (p s : string) : option string :=
  match p, s with
  | EmptyString, _ => Some s
  | String a p', String b s' =>
      if Ascii.eqb a b then strip_prefix p' s' else None
  | String _ _, EmptyString => None
  end.

(** The values printed in a block as ["   label: value"], in order. *)
Definition field (label : string) (b : list string) : list string :=
  flat_map (fun l => match strip_prefix ("   " ++ label ++ ": ") l with
                     | Some v => [v]
                     | None => []
                     end) b.

(** The heading both platform loops print for a dictionary key. *)
Definition platform_heading (key : string) : string :=
  "🏢 " ++ upper key ++ ":".

(** [true] when the character occurs in the string. *)
Fixpoint occurs (c : ascii) (s : string) : bool :=
  match s with
  | EmptyString => false
  | String c' r => Ascii.eqb c' c || occurs c r
  end.

Definition has_lf : string -> bool := occurs (ascii_of_nat 10).

(** The words of a line, and the word before the last one: where a tab
    line carries the rendering of its count. *)
Definition words (l : string) : list string := split_on " " l.

Definition printed_count (l : string) : option string :=
  match rev (words l) with
  | _ :: c :: _ => Some c
  | _ => None
  end.

Definition date_line (now : datetime) : string :=
  "Analysis Date: " ++ strftime now.

(** The platform blocks printed under the three section titles. *)
Definition status_section (now : datetime) : list (list string) :=
  section_blocks "📊 STATUS TAB ANALYSIS" (lines (analyze_platforms now)).

Definition feature_section (now : datetime) : list (list string) :=
  section_blocks "💡 UNIQUE FEATURES & INNOVATIONS"
    (lines (analyze_platforms now)).

Definition recommendation_section (now : datetime) : list (list string) :=
  section_blocks "🚀 IMPLEMENTATION RECOMMENDATIONS"
    (lines (analyze_platforms now)).

(** ** The properties, in the words of the specification *)

(** The name of the first tab, in list order, whose active flag is set, or
    the word None. *)
Definition first_active_name (tabs : list status_tab) : string :=
  match find active tabs with
  | Some tab => name tab
  | None => "None"
  end.

(** The active marker of a tab line. *)
Definition marker (a : bool) : string := if a then "[ACTIVE]" else "".

(** A feature list numbered 1, 2, ..., one entry a line. *)
Definition numbered (features : list string) : list string :=
  map (fun '(i, feature) => "   " ++ str (Z.of_nat i) ++ ". " ++ feature)
      (combine (seq 1 (List.length features)) features).

(** The rendering of a count: the number in parentheses, or a dash. *)
Definition count_text (c : option Z) : string :=
  match c with
  | Some n => "(" ++ str n ++ ")"
  | None => "(-)"
  end.

(** Two datasets that differ at most in their [table_columns] values:
    the same keys in the same order, with the same tabs and features. *)
Definition same_but_columns (d1 d2 : dict platform) : Prop :=
  Forall2 (fun a b => fst a = fst b
                      /\ status_tabs (snd a) = status_tabs (snd b)
                      /\ unique_features (snd a) = unique_features (snd b))
          d1 d2.

(** A dataset with its column counts replaced. *)
Definition with_columns (c : Z) (d : dict platform) : dict platform :=
  map (fun '(key, data) =>
         (key, {| status_tabs := status_tabs data;
                  table_columns := c;
                  unique_features := unique_features data |})) d.

(** The last word of a line: where a tab line carries its active marker. *)
Definition printed_marker (l : string) : option string :=
  match rev (words l) with
  | m :: _ => Some m
  | [] => None
  end.

(** The line of a tab: bullet, name, count, marker. *)
Definition tab_line (tab : status_tab) : string :=
  "      • " ++ name tab ++ " " ++ count_text (count tab) ++ " " ++
  marker (active tab).

(** The strings printed for one platform in the status section. *)
Definition status_block (item : string * platform) : list string :=
  let (key, data) := item in
  (LF ++ platform_heading key) ::
  ("   Total Categories: " ++ str (len (status_tabs data))) ::
  ("   Active Tab: " ++ first_active_name (status_tabs data)) ::
  map tab_line (status_tabs data).



(** The strings of the report that no dictionary reaches. *)
Definition header_strings (now : datetime) : list string :=
  [ "🚀 TURKISH E-COMMERCE PLATFORM ANALYSIS"; rule60;
    "Analysis Date: " ++ strftime now; rule60 ].

Definition status_title : list string :=
  [ LF ++ "📊 STATUS TAB ANALYSIS"; rule40 ].

Definition feature_title : list string :=
  [ LF ++ "💡 UNIQUE FEATURES & INNOVATIONS"; rule40 ].

Definition recommendation_title : list string :=
  [ LF ++ "🚀 IMPLEMENTATION RECOMMENDATIONS"; rule40 ].

Definition insight_strings : list string :=
  [ LF ++ "🎯 KEY INSIGHTS"; rule40;
    "✅ N11 has the most sophisticated status management (7 categories)";
    "💰 Hepsiburada leads in competitive intelligence features";
    "📊 All platforms prioritize table customization";
    "🔄 Our implementation aligns with industry standards";
    "🚀 Table Settings Modal matches N11/Hepsiburada patterns" ].

Definition footer_strings : list string :=
  [ LF ++ rule60; "🏆 ANALYSIS COMPLETE";
    "✨ Our table settings implementation is industry-standard!";
    "🎯 Next focus: Advanced status management system"; rule60 ].

(** [true] on a line whose last word is the active marker. *)
Definition marked (l : string) : bool :=
  match printed_marker l with
  | Some m => String.eqb m "[ACTIVE]"
  | None => false
  end.

(** ** What the monad prints *)

Lemma stdout_bind {A B : Type} (m : Out.t A) (k : A -> Out.t B) :
  stdout (Out.bind m k) = (stdout m ++ stdout (k (fst m)))%list.
Proof.
  destruct m as [a o1]; unfold Out.bind, stdout; simpl.
  destruct (k a) as [b o2]; reflexivity.
Qed.

Lemma stdout_seq {A B : Type} (m : Out.t A) (k : Out.t B) :
  stdout (m ;; k) = (stdout m ++ stdout k)%list.
Proof. apply stdout_bind. Qed.

Lemma stdout_for {A : Type} (xs : list A) (body : A -> Out.t unit) :
  stdout (for_ xs body) = flat_map (fun x => stdout (body x)) xs.
Proof.
  induction xs as [|x r IH]; simpl; [reflexivity|].
  rewrite stdout_bind, IH; reflexivity.
Qed.

Lemma stdout_print (s : string) : stdout (print s) = [s].
Proof. reflexivity. Qed.

(** ** Decimal numerals and strings *)

Lemma to_int_normal (n : Z) :
  Z.to_int n <> Decimal.Pos Decimal.Nil /\ Z.to_int n <> Decimal.Neg Decimal.Nil.
Proof.
  destruct n as [|p|p]; simpl; split; try discriminate;
    intros [= H]; revert H; apply DecimalPos.Unsigned.to_uint_nonnil.
Qed.

(** A printed integer reads back as itself. *)
Lemma int_str (n : Z) : read_int (str n) = Some n.
Proof.
  unfold read_int, str.
  destruct (to_int_normal n) as [Hp Hn].
  rewrite NilZero.isi by assumption.
  simpl; now rewrite DecimalZ.of_to.
Qed.

Lemma append_assoc (a b c : string) : (a ++ b) ++ c = a ++ b ++ c.
Proof. induction a as [|x a IH]; simpl; [reflexivity | now rewrite IH]. Qed.

Lemma append_nil_r (a : string) : a ++ "" = a.
Proof. induction a as [|x a IH]; simpl; [reflexivity | now rewrite IH]. Qed.

Lemma concat_cons (x : string) (xs : list string) :
  String.concat "" (x :: xs) = x ++ String.concat "" xs.
Proof. destruct xs; simpl; [now rewrite append_nil_r | reflexivity]. Qed.

Lemma occurs_app (c : ascii) (a b : string) :
  occurs c (a ++ b) = occurs c a || occurs c b.
Proof.
  induction a as [|c' a IH]; simpl; [reflexivity|].
  now rewrite IH, orb_assoc.
Qed.

(** A numeral holds digits and at most a sign: no line feed, no space. *)
Lemma occurs_uint (c : ascii) (d : Decimal.uint) :
  (nat_of_ascii c < 45)%nat -> occurs c (NilEmpty.string_of_uint d) = false.
Proof.
  intros Hc.
  assert (Hne : forall k, (45 <= k)%nat -> k = nat_of_ascii (ascii_of_nat k) ->
                  Ascii.eqb (ascii_of_nat k) c = false).
  { intros k Hk Hk'. apply Ascii.eqb_neq. intros <-. lia. }
  induction d; simpl; [reflexivity | ..]; rewrite IHd, orb_false_r.
  - apply (Hne 48%nat); [lia | reflexivity].
  - apply (Hne 49%nat); [lia | reflexivity].
  - apply (Hne 50%nat); [lia | reflexivity].
  - apply (Hne 51%nat); [lia | reflexivity].
  - apply (Hne 52%nat); [lia | reflexivity].
  - apply (Hne 53%nat); [lia | reflexivity].
  - apply (Hne 54%nat); [lia | reflexivity].
  - apply (Hne 55%nat); [lia | reflexivity].
  - apply (Hne 56%nat); [lia | reflexivity].
  - apply (Hne 57%nat); [lia | reflexivity].
Qed.

Lemma occurs_str (c : ascii) (n : Z) :
  (nat_of_ascii c < 45)%nat -> occurs c (str n) = false.
Proof.
  intros Hc.
  assert (Hm : Ascii.eqb "-" c = false).
  { apply Ascii.eqb_neq. intros <-. revert Hc. vm_compute. lia. }
  assert (H0 : Ascii.eqb "0" c = false).
  { apply Ascii.eqb_neq. intros <-. revert Hc. vm_compute. lia. }
  assert (Hu : forall d, occurs c (NilZero.string_of_uint d) = false).
  { intros d. unfold NilZero.string_of_uint.
    destruct d; try (apply occurs_uint; assumption).
    cbn [occurs]. now rewrite H0. }
  unfold str, NilZero.string_of_int.
  destruct (Z.to_int n) as [d|d]; [apply Hu|].
  cbn [occurs]. now rewrite Hm, Hu.
Qed.

Lemma has_lf_app (a b : string) : has_lf (a ++ b) = has_lf a || has_lf b.
Proof. apply occurs_app. Qed.

Lemma has_lf_mul_zero (k : nat) : has_lf (mul "0" k) = false.
Proof. induction k; simpl; auto. Qed.

Lemma has_lf_zfill (w n : nat) : has_lf (zfill w n) = false.
Proof.
  unfold zfill. rewrite has_lf_app, has_lf_mul_zero.
  apply occurs_str. vm_compute. lia.
Qed.

Lemma has_lf_strftime (now : datetime) : has_lf (strftime now) = false.
Proof.
  unfold strftime. rewrite !has_lf_app, !has_lf_zfill. reflexivity.
Qed.

Lemma split_on_one (c : ascii) (s : string) :
  occurs c s = false -> split_on c s = [s].
Proof.
  induction s as [|c' r IH]; simpl; [reflexivity|].
  destruct (Ascii.eqb c' c); simpl; [discriminate|].
  intros H; now rewrite (IH H).
Qed.

Lemma split_on_cons (c : ascii) (s : string) :
  exists l ls, split_on c s = l :: ls.
Proof.
  induction s as [|c' r [l [ls IH]]]; simpl; [now eauto|].
  destruct (Ascii.eqb c' c); [now eauto|].
  rewrite IH; eauto.
Qed.

(** Splitting distributes over a separator between two strings. *)
Lemma split_on_app (c : ascii) (a b : string) :
  split_on c (a ++ String c b) = (split_on c a ++ split_on c b)%list.
Proof.
  induction a as [|c' a IH]; simpl.
  - now rewrite Ascii.eqb_refl.
  - destruct (Ascii.eqb c' c); [now rewrite IH|].
    rewrite IH. destruct (split_on_cons c a) as [l [ls ->]]. reflexivity.
Qed.

Lemma text_lines_app (s rest : string) :
  text_lines (s ++ String (ascii_of_nat 10) rest) =
  (split_lf s ++ text_lines rest)%list.
Proof.
  unfold split_lf.
  induction s as [|c s IH]; simpl; [reflexivity|].
  destruct (Ascii.eqb c (ascii_of_nat 10)); [now rewrite IH|].
  rewrite IH. destruct (split_on_cons (ascii_of_nat 10) s) as [l [ls ->]].
  reflexivity.
Qed.

(** [lines] are the lines of the text on the terminal. *)
Lemma lines_text {A : Type} (m : Out.t A) : lines m = text_lines (text m).
Proof.
  unfold lines, text.
  induction (stdout m) as [|s r IH]; [reflexivity|].
  cbn [map flat_map].
  rewrite concat_cons, append_assoc.
  change (String (ascii_of_nat 10) "" ++ ?x) with (String (ascii_of_nat 10) x).
  now rewrite text_lines_app, IH.
Qed.

(** ** The printed lines of [analyze_platforms] *)

(** The header is four lines; the date line is the only printed string
    that depends on the clock, and it is one line. *)
Lemma lines_analyze (now : datetime) :
  lines (analyze_platforms now) =
  ("🚀 TURKISH E-COMMERCE PLATFORM ANALYSIS" :: rule60 :: date_line now ::
   rule60 :: flat_map split_lf (skipn 4 (stdout (analyze_platforms now))))%list.
Proof.
  unfold lines.
  change (stdout (analyze_platforms now)) with
    ("🚀 TURKISH E-COMMERCE PLATFORM ANALYSIS" :: rule60 :: date_line now ::
     rule60 :: skipn 4 (stdout (analyze_platforms now)))%list at 1.
  cbn [flat_map].
  unfold split_lf at 3. rewrite (split_on_one _ (date_line now)).
  - reflexivity.
  - fold has_lf. unfold date_line.
    rewrite has_lf_app, has_lf_strftime. reflexivity.
Qed.

(** Evaluates a statement about the lines printed at clock reading [now]:
    the date string is kept as an unknown, everything else is computed. *)
Ltac run_report now :=
  rewrite ?(lines_analyze now); unfold date_line;
  generalize (strftime now); intro; vm_compute.

(** What follows the header does not depend on the clock. *)
Lemma body_constant (now1 now2 : datetime) :
  skipn 4 (stdout (analyze_platforms now1)) =
  skipn 4 (stdout (analyze_platforms now2)).
Proof. reflexivity. Qed.

(** The platform keys are ASCII, where [upper] is what Python computes. *)
Lemma platform_keys_ascii :
  forallb is_ascii (map fst (items platforms_data)) = true.
Proof. reflexivity. Qed.

(** ** Facts about the loops, for any data *)

Lemma next_first_active (tabs : list status_tab) :
  next (map name (filter active tabs)) "None" = first_active_name tabs.
Proof.
  unfold first_active_name.
  induction tabs as [|t r IH]; simpl; [reflexivity|].
  destruct (active t); simpl; [reflexivity | exact IH].
Qed.

Lemma stdout_print_tab (nm : string) (c : option Z) (a : bool) :
  stdout (print_tab {| name := nm; count := c; active := a |}) =
  [ "      • " ++ nm ++ " " ++
    match c with Some n => "(" ++ str n ++ ")" | None => "(-)" end ++
    " " ++ marker a ].
Proof. destruct a; reflexivity. Qed.

Lemma stdout_print_status (key : string) (data : platform) :
  stdout (print_status (key, data)) =
  (LF ++ platform_heading key) ::
  ("   Total Categories: " ++ str (len (status_tabs data))) ::
  ("   Active Tab: " ++ first_active_name (status_tabs data)) ::
  flat_map (fun tab => stdout (print_tab tab)) (status_tabs data).
Proof.
  unfold print_status.
  rewrite !stdout_seq, !stdout_print, stdout_for, next_first_active.
  reflexivity.
Qed.

Lemma stdout_enumerate (fs : list string) (k : nat) :
  stdout (for_ (enumerate fs (Z.of_nat k))
            (fun '(i, feature) => print ("   " ++ str i ++ ". " ++ feature))) =
  map (fun '(i, feature) => "   " ++ str (Z.of_nat i) ++ ". " ++ feature)
      (combine (seq k (List.length fs)) fs).
Proof.
  revert k; induction fs as [|f r IH]; intros k;
    cbn [enumerate for_ List.length seq combine map]; [reflexivity|].
  rewrite stdout_bind, stdout_print.
  replace (Z.of_nat k + 1)%Z with (Z.of_nat (S k)) by lia.
  now rewrite IH.
Qed.

Lemma stdout_print_features (key : string) (data : platform) :
  stdout (print_features (key, data)) =
  (LF ++ platform_heading key) :: numbered (unique_features data).
Proof.
  unfold print_features, numbered.
  rewrite stdout_seq, stdout_print.
  cbn [app]; f_equal.
  exact (stdout_enumerate (unique_features data) 1).
Qed.

Lemma stdout_print_category (category : string) (items : list string) :
  stdout (print_category (category, items)) =
  (LF ++ category ++ ":") :: map (fun item => "   " ++ item) items.
Proof.
  unfold print_category.
  rewrite stdout_seq, stdout_print, stdout_for, flat_map_concat_map.
  simpl. f_equal.
  induction items as [|x r IH]; simpl; [reflexivity | now rewrite IH].
Qed.

Lemma occurs_space_count_text (c : option Z) : occurs " " (count_text c) = false.
Proof.
  destruct c as [n|]; [|reflexivity].
  unfold count_text. rewrite !occurs_app, occurs_str; [reflexivity|].
  vm_compute; lia.
Qed.

(** The word before the last on a tab line is the rendering of the count,
    whatever the name of the tab. *)
Lemma printed_count_tab (tab : status_tab) :
  map printed_count (stdout (print_tab tab)) = [Some (count_text (count tab))].
Proof.
  destruct tab as [nm c a]. rewrite stdout_print_tab.
  fold (count_text c). cbn [map count]. do 2 f_equal.
  unfold printed_count, words.
  change (" " ++ count_text c ++ " " ++ marker a)
    with (String " " (count_text c ++ String " " (marker a))).
  rewrite <- append_assoc, !split_on_app.
  rewrite (split_on_one " " (count_text c)) by apply occurs_space_count_text.
  rewrite (split_on_one " " (marker a)) by (destruct a; reflexivity).
  now rewrite rev_app_distr.
Qed.

Lemma nth_error_numbered_from (fs : list string) (k i : nat) (f : string) :
  nth_error fs i = Some f ->
  nth_error
    (map (fun '(j, feature) => "   " ++ str (Z.of_nat j) ++ ". " ++ feature)
         (combine (seq k (List.length fs)) fs)) i =
  Some ("   " ++ str (Z.of_nat (k + i)) ++ ". " ++ f).
Proof.
  revert k i; induction fs as [|x r IH]; intros k [|i];
    cbn [List.length seq combine map nth_error]; try discriminate.
  - intros [= ->]. now rewrite Nat.add_0_r.
  - intros H. rewrite (IH (S k) i H). now rewrite Nat.add_succ_r.
Qed.

Lemma length_numbered (fs : list string) :
  List.length (numbered fs) = List.length fs.
Proof.
  unfold numbered.
  now rewrite length_map, length_combine, length_seq, Nat.min_id.
Qed.

Lemma for_same_but_columns (d1 d2 : dict platform) :
  same_but_columns d1 d2 ->
  for_ (items d1) print_status = for_ (items d2) print_status
  /\ for_ (items d1) print_features = for_ (items d2) print_features.
Proof.
  unfold items.
  induction 1 as [|[k1 p1] [k2 p2] r1 r2 (Hk & Ht & Hf) _ [IHs IHf]];
    [split; reflexivity|].
  simpl in Hk, Ht, Hf. subst k2.
  cbn [for_]. rewrite IHs, IHf.
  unfold print_status, print_features. rewrite Ht, Hf.
  split; reflexivity.
Qed.

(** ** The properties of the report *)

(** C1: for every platform of the embedded data, the value printed after
    "Active Tab" is the name of the first status tab, in list order, whose
    active flag is true, or the word None when no tab is active.  The loop
    body prints that line for any platform; on the embedded data the three
    values are Satıştakiler for N11, None for Hepsiburada and Tümü for
    Trendyol. *)
Theorem active_tab_printed (now : datetime) :
  (forall key data,
     nth_error (stdout (print_status (key, data))) 2 =
     Some ("   Active Tab: " ++ first_active_name (status_tabs data)))
  /\ map (fun b => (heading b, field "Active Tab" b)) (status_section now) =
     map (fun '(key, data) =>
            (platform_heading key, [first_active_name (status_tabs data)]))
         platforms_data
  /\ map (fun b => (heading b, field "Active Tab" b)) (status_section now) =
     [ ("🏢 N11:", ["Satıştakiler"]);
       ("🏢 HEPSIBURADA:", ["None"]);
       ("🏢 TRENDYOL:", ["Tümü"]) ].
Proof.
  split; [intros key data; now rewrite stdout_print_status|].
  unfold status_section; split; run_report now; reflexivity.
Qed.

(** C2: every status tab is rendered on its line with its count as the
    decimal number in parentheses when the count is a number, and as a
    dash in parentheses when it is absent.  This holds of the line the
    loop body prints for any tab (the number reads back as the count), and
    the lines under each platform of the status section are these lines,
    one for each tab in order. *)
Theorem count_rendered (now : datetime) :
  (forall nm n a,
     stdout (print_tab {| name := nm; count := Some n; active := a |}) =
     [ "      • " ++ nm ++ " (" ++ str n ++ ") " ++ marker a ]
     /\ map printed_count
          (stdout (print_tab {| name := nm; count := Some n; active := a |})) =
        [ Some ("(" ++ str n ++ ")") ]
     /\ read_int (str n) = Some n)
  /\ (forall nm a,
       stdout (print_tab {| name := nm; count := None; active := a |}) =
       [ "      • " ++ nm ++ " (-) " ++ marker a ]
       /\ map printed_count
            (stdout (print_tab {| name := nm; count := None; active := a |})) =
          [ Some "(-)" ])
  /\ map (skipn 3) (status_section now) =
     map (fun '(_, data) =>
            flat_map (fun tab => stdout (print_tab tab)) (status_tabs data))
         platforms_data
  /\ map (fun b => map printed_count (skipn 3 b)) (status_section now) =
     map (fun '(_, data) =>
            map (fun tab => Some (count_text (count tab))) (status_tabs data))
         platforms_data.
Proof.
  split; [|split].
  - intros nm n a. split; [|split].
    + now rewrite stdout_print_tab, !append_assoc.
    + apply (printed_count_tab {| name := nm; count := Some n; active := a |}).
    + apply int_str.
  - intros nm a. split.
    + now rewrite stdout_print_tab.
    + apply (printed_count_tab {| name := nm; count := None; active := a |}).
  - unfold status_section; split; run_report now; reflexivity.
Qed.

(** C3: for each of the three platforms the number printed after
    "Total Categories" is the length of its status tab list: 7 for N11,
    4 for Hepsiburada and 4 for Trendyol. *)
Theorem total_categories_printed (now : datetime) :
  map (fun b => (heading b, map read_int (field "Total Categories" b)))
      (status_section now) =
  map (fun '(key, data) =>
         (platform_heading key, [Some (Z.of_nat (List.length (status_tabs data)))]))
      platforms_data
  /\ map (fun b => (heading b, field "Total Categories" b)) (status_section now) =
     [ ("🏢 N11:", ["7"]); ("🏢 HEPSIBURADA:", ["4"]); ("🏢 TRENDYOL:", ["4"]) ]
  /\ map (fun '(key, data) => (key, List.length (status_tabs data)))
         platforms_data =
     [ ("N11", 7); ("Hepsiburada", 4); ("Trendyol", 4) ]%nat.
Proof.
  unfold status_section; repeat split; run_report now; reflexivity.
Qed.

(** C4: for every platform the feature section prints the whole list of
    unique features, one feature a line, in the order of the list and
    numbered 1, 2, ..., up to the length of the list.  The loop body does
    so for any platform: after the heading come as many strings as there
    are features, the one at position [i] (from 0) carrying the number
    [i + 1] and the feature at position [i]; the blocks of the feature
    section are these strings for the three platforms. *)
Theorem features_numbered (now : datetime) :
  (forall key data,
     stdout (print_features (key, data)) =
       (LF ++ platform_heading key) :: numbered (unique_features data)
     /\ List.length (numbered (unique_features data)) =
        List.length (unique_features data)
     /\ forall i feature,
          nth_error (unique_features data) i = Some feature ->
          nth_error (numbered (unique_features data)) i =
          Some ("   " ++ str (Z.of_nat (i + 1)) ++ ". " ++ feature))
  /\ feature_section now =
     map (fun '(key, data) =>
            platform_heading key :: numbered (unique_features data))
         platforms_data.
Proof.
  split.
  - intros key data. split; [apply stdout_print_features|].
    split; [apply length_numbered|].
    intros i feature H. unfold numbered.
    rewrite (nth_error_numbered_from _ 1 i feature H).
    now rewrite Nat.add_comm.
  - unfold feature_section; run_report now; reflexivity.
Qed.

(** C5: the recommendations section prints exactly three category blocks,
    high priority, then medium priority, then future enhancements, and in
    each block the label of the category followed by every item of its
    list, in list order. *)
Theorem recommendations_printed (now : datetime) :
  recommendation_section now =
    map (fun '(category, items) =>
           (category ++ ":") :: map (fun item => "   " ++ item) items)
        recommendations
  /\ map heading (recommendation_section now) =
     [ "🟢 HIGH PRIORITY:"; "🟡 MEDIUM PRIORITY:"; "🔴 FUTURE ENHANCEMENTS:" ]
  /\ map fst (items recommendations) =
     [ "🟢 HIGH PRIORITY"; "🟡 MEDIUM PRIORITY"; "🔴 FUTURE ENHANCEMENTS" ]
  /\ (forall recs : dict (list string),
       stdout (for_ (items recs) print_category) =
       flat_map (fun '(category, its) =>
                   (LF ++ category ++ ":") :: map (fun item => "   " ++ item) its)
                recs).
Proof.
  split; [|split; [|split]];
    try (unfold recommendation_section; run_report now; reflexivity).
  intros recs. unfold items. rewrite stdout_for.
  induction recs as [|[category its] r IH]; [reflexivity|].
  cbn [flat_map]. now rewrite stdout_print_category, IH.
Qed.

(** C6: the status tab section and the feature section both walk the
    platforms in one fixed order: N11, then Hepsiburada, then Trendyol. *)
Theorem platforms_in_order (now : datetime) :
  map heading (status_section now) =
    map platform_heading [ "N11"; "Hepsiburada"; "Trendyol" ]
  /\ map heading (feature_section now) =
     map platform_heading [ "N11"; "Hepsiburada"; "Trendyol" ]
  /\ map heading (status_section now) =
     [ "🏢 N11:"; "🏢 HEPSIBURADA:"; "🏢 TRENDYOL:" ]
  /\ map fst (items platforms_data) = [ "N11"; "Hepsiburada"; "Trendyol" ].
Proof.
  unfold status_section, feature_section;
    repeat split; run_report now; reflexivity.
Qed.

(** C7: the sections of the report stand in this order: the header (title
    banner and date line), the status tab analysis, the feature analysis,
    the insights, the recommendations, the closing footer.  Nothing is
    printed before the header, and the platform and category blocks stand
    under the status, feature and recommendation titles. *)
Theorem sections_in_order (now : datetime) :
  map fst (sections (lines (analyze_platforms now))) =
    [ [ "🚀 TURKISH E-COMMERCE PLATFORM ANALYSIS"; rule60;
        "Analysis Date: " ++ strftime now; rule60 ];
      [ "📊 STATUS TAB ANALYSIS"; rule40 ];
      [ "💡 UNIQUE FEATURES & INNOVATIONS"; rule40 ];
      [ "🎯 KEY INSIGHTS"; rule40;
        "✅ N11 has the most sophisticated status management (7 categories)";
        "💰 Hepsiburada leads in competitive intelligence features";
        "📊 All platforms prioritize table customization";
        "🔄 Our implementation aligns with industry standards";
        "🚀 Table Settings Modal matches N11/Hepsiburada patterns" ];
      [ "🚀 IMPLEMENTATION RECOMMENDATIONS"; rule40 ];
      [ rule60; "🏆 ANALYSIS COMPLETE";
        "✨ Our table settings implementation is industry-standard!";
        "🎯 Next focus: Advanced status management system"; rule60 ] ]
  /\ fst (group_sections (blocks (lines (analyze_platforms now)))) = []
  /\ map (fun s => List.length (snd s))
         (sections (lines (analyze_platforms now))) = [0; 3; 3; 0; 3; 0]%nat.
Proof.
  repeat split; run_report now; reflexivity.
Qed.

(** C8: two runs of the report print the same text line for line, except
    possibly for the one header line that holds the date: the clock
    reading is the only input.  The two texts have the same number of
    lines, they agree at every line but the third, and the third line of
    each is the date line of its own clock reading. *)
Theorem runs_differ_in_date_line_only (now1 now2 : datetime) :
  List.length (lines (analyze_platforms now1)) =
    List.length (lines (analyze_platforms now2))
  /\ (forall k, k <> 2%nat ->
       nth_error (lines (analyze_platforms now1)) k =
       nth_error (lines (analyze_platforms now2)) k)
  /\ nth_error (lines (analyze_platforms now1)) 2 =
     Some ("Analysis Date: " ++ strftime now1)
  /\ nth_error (lines (analyze_platforms now2)) 2 =
     Some ("Analysis Date: " ++ strftime now2)
  /\ (strftime now1 = strftime now2 ->
      lines (analyze_platforms now1) = lines (analyze_platforms now2)).
Proof.
  rewrite !lines_analyze, (body_constant now1 now2).
  repeat split.
  - intros [|[|[|k]]] Hk; try reflexivity. now elim Hk.
  - unfold date_line. now intros ->.
Qed.

(** C9: a tab whose count is the number 0 is rendered with a zero in
    parentheses, not with the dash: the dash is printed exactly when the
    count is absent.  On the embedded data the only lines rendered with a
    zero are those of the two tabs of N11 whose count is 0. *)
Theorem zero_count_rendered (now : datetime) :
  (forall nm a,
     stdout (print_tab {| name := nm; count := Some 0%Z; active := a |}) =
     [ "      • " ++ nm ++ " (0) " ++ marker a ])
  /\ (forall tab,
       map printed_count (stdout (print_tab tab)) = [ Some "(-)" ] <->
       count tab = None)
  /\ flat_map
       (filter (fun l => match printed_count l with
                         | Some c => String.eqb c "(0)"
                         | None => false
                         end))
       (status_section now) =
     [ "      • Satışta Olmayanlar (0) "; "      • Aksiyon Bekleyenler (0) " ]
  /\ map (fun '(key, data) =>
            (key, map name (filter (fun tab => match count tab with
                                               | Some n => Z.eqb n 0
                                               | None => false
                                               end) (status_tabs data))))
         platforms_data =
     [ ("N11", [ "Satışta Olmayanlar"; "Aksiyon Bekleyenler" ]);
       ("Hepsiburada", []); ("Trendyol", []) ].
Proof.
  split; [|split; [|split]].
  - intros nm a. now rewrite stdout_print_tab.
  - intros tab. rewrite printed_count_tab. split.
    + destruct (count tab) as [n|]; [|reflexivity].
      intros [= H]. exfalso.
      pose proof (int_str n) as Hn.
      destruct (str n) as [|c [|c' r]]; simpl in H; try discriminate.
      * injection H as -> . discriminate Hn.
      * injection H as _ _ Hr. destruct r; discriminate Hr.
    + now intros ->.
  - unfold status_section; run_report now; reflexivity.
  - reflexivity.
Qed.

(** C10: the [table_columns] field of a platform does not reach the
    output: on two datasets that differ only in their [table_columns]
    values the report is the same, whatever the clock reading and the
    recommendations. *)
Theorem table_columns_unused (now : datetime)
    (d1 d2 : dict platform) (recs : dict (list string)) :
  same_but_columns d1 d2 ->
  analyze_platforms_on now d1 recs = analyze_platforms_on now d2 recs.
Proof.
  intros H. destruct (for_same_but_columns d1 d2 H) as [Hs Hf].
  unfold analyze_platforms_on. now rewrite Hs, Hf.
Qed.

(** The report on the embedded data with every column count set to 0 is
    the report of the script. *)
Lemma table_columns_unused_witness :
  same_but_columns platforms_data (with_columns 0 platforms_data)
  /\ analyze_platforms_on (mkDatetime 2024 3 7 9 5) platforms_data
       recommendations =
     analyze_platforms_on (mkDatetime 2024 3 7 9 5)
       (with_columns 0 platforms_data) recommendations.
Proof.
  assert (H : same_but_columns platforms_data (with_columns 0 platforms_data))
    by (repeat constructor).
  split; [exact H|].
  exact (table_columns_unused _ _ _ recommendations H).
Defined.

(** ** Further properties of the loops and of the report *)

Lemma length_append (a b : string) :
  String.length (a ++ b) = (String.length a + String.length b)%nat.
Proof. induction a as [|c a IH]; simpl; [reflexivity | now rewrite IH]. Qed.

Lemma append_cancel_r (a b c : string) : a ++ c = b ++ c -> a = b.
Proof.
  revert b; induction a as [|x a IH]; intros [|y b] H; simpl in H.
  - reflexivity.
  - apply (f_equal String.length) in H. simpl in H.
    rewrite length_append in H. lia.
  - apply (f_equal String.length) in H. simpl in H.
    rewrite length_append in H. lia.
  - injection H as -> H. now rewrite (IH b H).
Qed.

Lemma append_cancel_l (p a b : string) : p ++ a = p ++ b -> a = b.
Proof.
  induction p as [|x p IH]; simpl; [trivial|].
  intros [= H]. exact (IH H).
Qed.

Lemma str_inj (a b : Z) : str a = str b -> a = b.
Proof.
  intros H. pose proof (int_str a) as Ha. rewrite H, int_str in Ha.
  now injection Ha.
Qed.

Lemma count_text_number (n : Z) : count_text (Some n) <> "(-)".
Proof.
  unfold count_text. intros [= H].
  pose proof (int_str n) as Hn.
  destruct (str n) as [|c [|c' r]]; simpl in H; try discriminate.
  - injection H as -> . discriminate Hn.
  - injection H as _ _ Hr. destruct r; discriminate Hr.
Qed.

Lemma count_text_inj (c1 c2 : option Z) :
  count_text c1 = count_text c2 -> c1 = c2.
Proof.
  destruct c1 as [a|], c2 as [b|]; intros H.
  - unfold count_text in H. injection H as H.
    apply append_cancel_r in H. now rewrite (str_inj a b H).
  - now elim (count_text_number a).
  - now elim (count_text_number b).
  - reflexivity.
Qed.

Lemma stdout_tab_line (tab : status_tab) :
  stdout (print_tab tab) = [tab_line tab].
Proof. destruct tab as [nm c a]. apply stdout_print_tab. Qed.

(** The words of a tab line: those of the bullet and the name, then the
    count, then the marker. *)
Lemma words_tab_line (tab : status_tab) :
  words (tab_line tab) =
  (words ("      • " ++ name tab) ++
   [count_text (count tab); marker (active tab)])%list.
Proof.
  unfold tab_line, words.
  change (" " ++ count_text (count tab) ++ " " ++ marker (active tab))
    with (String " " (count_text (count tab) ++
                      String " " (marker (active tab)))).
  rewrite <- append_assoc, !split_on_app.
  rewrite (split_on_one " " (count_text _)) by apply occurs_space_count_text.
  rewrite (split_on_one " " (marker _)) by (destruct (active tab); reflexivity).
  reflexivity.
Qed.

Lemma stdout_analyze_on (now : datetime) (pd : dict platform)
    (recs : dict (list string)) :
  stdout (analyze_platforms_on now pd recs) =
  (header_strings now ++
   status_title ++
   flat_map (fun it => stdout (print_status it)) pd ++
   feature_title ++
   flat_map (fun it => stdout (print_features it)) pd ++
   insight_strings ++
   recommendation_title ++
   flat_map (fun it => stdout (print_category it)) recs ++
   footer_strings)%list.
Proof.
  unfold analyze_platforms_on, items.
  rewrite !stdout_seq, !stdout_for, !stdout_print.
  reflexivity.
Qed.

Lemma stdout_status_block (item : string * platform) :
  stdout (print_status item) = status_block item.
Proof.
  destruct item as [key data]. rewrite stdout_print_status.
  unfold status_block.
  assert (H : forall tabs,
             flat_map (fun tab => stdout (print_tab tab)) tabs =
             map tab_line tabs).
  { induction tabs as [|t r IH]; [reflexivity|].
    cbn [flat_map map]. now rewrite stdout_tab_line, IH. }
  now rewrite H.
Qed.

Lemma printed_marker_tab_line (tab : status_tab) :
  printed_marker (tab_line tab) = Some (marker (active tab)).
Proof.
  unfold printed_marker. now rewrite words_tab_line, rev_app_distr.
Qed.

Lemma first_active_after (pre post : list status_tab) (t : status_tab) :
  forallb (fun x => negb (active x)) pre = true ->
  active t = true ->
  first_active_name (pre ++ t :: post) = name t.
Proof.
  unfold first_active_name.
  induction pre as [|x pre IH]; cbn [app find forallb]; intros Hpre Ht.
  - now rewrite Ht.
  - apply andb_prop in Hpre as [Hx Hpre].
    destruct (active x); [discriminate|]. now apply IH.
Qed.

Lemma first_active_none (tabs : list status_tab) :
  forallb (fun x => negb (active x)) tabs = true ->
  first_active_name tabs = "None".
Proof.
  unfold first_active_name.
  induction tabs as [|x r IH]; cbn [find forallb]; [reflexivity|].
  intros H. apply andb_prop in H as [Hx Hr].
  destruct (active x); [discriminate|]. now apply IH.
Qed.

Lemma strip_prefix_app (p s : string) : strip_prefix p (p ++ s) = Some s.
Proof.
  induction p as [|c p IH]; simpl; [now destruct s|].
  now rewrite Ascii.eqb_refl.
Qed.


(** X2: the number of calls of [print] in a run is 22 for the fixed
    strings, plus 3 and the number of tabs for each platform, plus 1 and
    the number of features for each platform, plus 1 and the number of
    items for each category. *)
Theorem report_length (now : datetime) (pd : dict platform)
    (recs : dict (list string)) :
  List.length (stdout (analyze_platforms_on now pd recs)) =
  (22
   + list_sum (map (fun it => 3 + List.length (status_tabs (snd it))) pd)
   + list_sum (map (fun it => 1 + List.length (unique_features (snd it))) pd)
   + list_sum (map (fun it => 1 + List.length (snd it)) recs))%nat.
Proof.
  rewrite stdout_analyze_on, !length_app, !length_flat_map.
  rewrite (map_ext (fun it => List.length (stdout (print_status it)))
             (fun it => 3 + List.length (status_tabs (snd it)))%nat).
  - rewrite (map_ext (fun it => List.length (stdout (print_features it)))
               (fun it => 1 + List.length (unique_features (snd it)))%nat).
    + rewrite (map_ext (fun it => List.length (stdout (print_category it)))
                 (fun it => 1 + List.length (snd it))%nat).
      * cbn [List.length header_strings status_title feature_title
               insight_strings recommendation_title footer_strings]. lia.
      * intros [category its]. rewrite stdout_print_category.
        cbn [List.length snd]. now rewrite length_map.
    + intros [key data]. rewrite stdout_print_features.
      cbn [List.length snd]. now rewrite length_numbered.
  - intros [key data]. rewrite stdout_status_block.
    cbn [status_block List.length snd]. now rewrite length_map.
Qed.


(** X4: the active flags are not checked for uniqueness.  When no tab of
    a platform is active the Active Tab line says None; otherwise it names
    the first active tab of the list, whatever the flags of the tabs after
    it. *)
Theorem active_tab_is_first (key : string) (c : Z)
    (features : list string) :
  (forall tabs,
     forallb (fun x => negb (active x)) tabs = true ->
     nth_error (stdout (print_status
        (key, {| status_tabs := tabs; table_columns := c;
                 unique_features := features |}))) 2 =
     Some "   Active Tab: None")
  /\ (forall pre t post,
       forallb (fun x => negb (active x)) pre = true ->
       active t = true ->
       nth_error (stdout (print_status
          (key, {| status_tabs := (pre ++ t :: post)%list; table_columns := c;
                   unique_features := features |}))) 2 =
       Some ("   Active Tab: " ++ name t)).
Proof.
  split.
  - intros tabs H. rewrite stdout_print_status. cbn [nth_error status_tabs].
    now rewrite (first_active_none tabs H).
  - intros pre t post Hpre Ht. rewrite stdout_print_status.
    cbn [nth_error status_tabs].
    now rewrite (first_active_after pre post t Hpre Ht).
Qed.

(** X5: the last word of the line printed for a tab is the marker
    [[ACTIVE]] when the tab is active and the empty word otherwise (the
    line of an inactive tab ends in a space), whatever its name and count;
    so among the lines printed for a list of tabs, as many carry the
    marker as there are active tabs. *)
Theorem active_marker_printed (tabs : list status_tab) :
  (forall tab,
     map printed_marker (stdout (print_tab tab)) =
     [ Some (if active tab then "[ACTIVE]" else "") ])
  /\ List.length
       (filter marked (flat_map (fun tab => stdout (print_tab tab)) tabs)) =
     List.length (filter active tabs).
Proof.
  split.
  - intros tab. rewrite stdout_tab_line. cbn [map].
    now rewrite printed_marker_tab_line.
  - induction tabs as [|t r IH]; [reflexivity|].
    cbn [flat_map]. rewrite stdout_tab_line. cbn [app filter].
    unfold marked at 1. rewrite printed_marker_tab_line.
    destruct (active t); cbn [marker String.eqb Ascii.eqb Bool.eqb List.length];
      now rewrite IH.
Qed.

(** X6: the line printed for a tab determines the tab: two tabs with the
    same printed line have the same name, the same count and the same
    active flag. *)
Theorem tab_line_determines_tab (t1 t2 : status_tab) :
  stdout (print_tab t1) = stdout (print_tab t2) -> t1 = t2.
Proof.
  rewrite !stdout_tab_line. intros H.
  apply (f_equal (hd "")) in H. cbn [hd] in H.
  pose proof (f_equal words H) as Hw.
  rewrite !words_tab_line in Hw.
  change [count_text (count t1); marker (active t1)]
    with ([count_text (count t1)] ++ [marker (active t1)])%list in Hw.
  change [count_text (count t2); marker (active t2)]
    with ([count_text (count t2)] ++ [marker (active t2)])%list in Hw.
  rewrite !app_assoc in Hw.
  apply app_inj_tail in Hw as [Hw Hm].
  apply app_inj_tail in Hw as [_ Hc].
  apply count_text_inj in Hc.
  assert (Ha : active t1 = active t2)
    by (destruct (active t1), (active t2); (reflexivity || discriminate Hm)).
  destruct t1 as [n1 c1 a1], t2 as [n2 c2 a2].
  cbn [count active name] in *. subst c2 a2.
  unfold tab_line in H. cbn [count active name] in H.
  apply append_cancel_l in H.
  now rewrite (append_cancel_r n1 n2 _ H).
Qed.

(** Two readings of one line give one tab. *)
Lemma tab_line_determines_tab_witness :
  {| name := "Kilitli"; count := Some 1%Z; active := false |} =
  {| name := "Kilitli"; count := Some 1%Z; active := false |}.
Proof.
  apply (tab_line_determines_tab
           {| name := "Kilitli"; count := Some 1%Z; active := false |}
           {| name := "Kilitli"; count := Some 1%Z; active := false |}).
  reflexivity.
Defined.

(** X7: in the block printed for any platform the number after
    Total Categories is the number of tab lines that follow the
    Active Tab line, and no other line of the block reads as a total. *)
Theorem total_counts_tab_lines (key : string) (data : platform) :
  map read_int
      (field "Total Categories" (stdout (print_status (key, data)))) =
  [ Some (Z.of_nat (List.length (skipn 3 (stdout (print_status (key, data)))))) ].
Proof.
  rewrite stdout_status_block. cbn [status_block skipn].
  rewrite length_map. unfold field. cbn [flat_map].
  change ("   " ++ "Total Categories" ++ ": ") with "   Total Categories: ".
  rewrite strip_prefix_app.
  assert (Hh : strip_prefix "   Total Categories: " (LF ++ platform_heading key)
               = None) by reflexivity.
  assert (Ha : strip_prefix "   Total Categories: "
                 ("   Active Tab: " ++ first_active_name (status_tabs data))
               = None) by reflexivity.
  rewrite Hh, Ha. cbn [app].
  assert (Ht : flat_map
                 (fun l => match strip_prefix "   Total Categories: " l with
                           | Some v => [v]
                           | None => []
                           end) (map tab_line (status_tabs data)) = []).
  { induction (status_tabs data) as [|t r IH]; [reflexivity|].
    cbn [map flat_map]. now rewrite IH. }
  rewrite Ht. cbn [map]. unfold len. now rewrite int_str.
Qed.
